(** * img_to_bytes: the byte dumper of [scripts/img_to_bytes.py]

    The script reads its argument vector, asks the file system whether the
    named path exists, lets Pillow decode the file, widens every byte of the
    pixel buffer to a float and prints the list.  The embedding below keeps
    that shape: [main] is written in a small monad that reads the host
    (argument vector, file system, decoder), may raise an exception, and
    logs every step it takes. *)

From Stdlib Require Import ZArith Lia Bool List Sorted String Ascii Floats DecimalString.
From Stdlib Require Strings.Byte.
Import ListNotations.

Local Open Scope string_scope.

(** ** The Python runtime the script leans on *)

Module Py.

(** The exceptions (instances of [Exception]) that can reach [main]:
    the interpreter's own, and those of the file system and of Pillow. *)
Inductive exception : Type :=
| IndexError
| OverflowError
| FileNotFoundError (path : string)
| IsADirectoryError (path : string)
| PermissionError (path : string)
| UnidentifiedImageError (path : string)
| OSError (msg : string)
| ValueError (msg : string).

(** An expression either yields a value or raises. *)
Inductive result (A : Type) : Type :=
| Ok (a : A)
| Raised (e : exception).
Arguments Ok {A} a.
Arguments Raised {A} e.

(** A [bytes] object; iterating it yields ints in [0, 255]. *)
Definition bytes : Type := list Byte.byte.

Definition int_of_byte (b : Byte.byte) : Z := Z.of_N (Byte.to_N b).

(** [float(i)] for an int [i]: the binary64 nearest to [i] (ties to even),
    [OverflowError] when that is beyond the largest finite float. *)
Definition float (i : Z) : result PrimFloat.float :=
  match binary_normalize prec emax i 0 false with
  | S754_infinity _ => Raised OverflowError
  | sf => Ok (SF2Prim sf)
  end.

(** The list comprehension [[f(i) for i in xs]]: elements are evaluated
    left to right and the first exception ends the evaluation. *)
Fixpoint comprehension {A B : Type} (f : A -> result B) (xs : list A)
  : result (list B) :=
  match xs with
  | [] => Ok []
  | x :: xs' =>
      match f x with
      | Raised e => Raised e
      | Ok y =>
          match comprehension f xs' with
          | Raised e => Raised e
          | Ok ys => Ok (y :: ys)
          end
      end
  end.

(** The integer a float denotes, when it is finite and has no fractional
    part ([float.is_integer] together with [int(x)]). *)
Definition float_as_integer (x : PrimFloat.float) : option Z :=
  match Prim2SF x with
  | S754_zero _ => Some 0%Z
  | S754_finite s m e =>
      let signed (z : Z) := if s then Z.opp z else z in
      if (0 <=? e)%Z then Some (signed (Z.pos m * 2 ^ e)%Z)
      else if (Z.pos m mod 2 ^ (- e) =? 0)%Z
           then Some (signed (Z.pos m / 2 ^ (- e))%Z)
           else None
  | _ => None
  end.

(** [repr(i)] for a non-negative int. *)
Definition repr_nat (z : Z) : string :=
  NilZero.string_of_uint (N.to_uint (Z.to_N z)).

(** [repr(x)] for a float.  Integral values below [10^16] in magnitude are
    written in fixed notation with a trailing [.0]; infinities and NaN by
    name.  Every other float (fractions, exponent notation) goes through
    the interpreter's shortest-round-trip formatter, which [main] never
    reaches and which is therefore left as the parameter [general]. *)
Definition float_repr (general : PrimFloat.float -> string)
  (x : PrimFloat.float) : string :=
  match Prim2SF x with
  | S754_nan => "nan"
  | S754_infinity s => if s then "-inf" else "inf"
  | S754_zero s => if s then "-0.0" else "0.0"
  | S754_finite s _ _ =>
      match float_as_integer x with
      | Some z =>
          if (Z.abs z <? 10 ^ 16)%Z
          then (if s then "-" else "") ++ repr_nat (Z.abs z) ++ ".0"
          else general x
      | None => general x
      end
  end.

(** [repr] of a list: the elements' [repr]s between brackets, separated
    by a comma and a space. *)
Definition list_repr {A : Type} (repr : A -> string) (xs : list A) : string :=
  "[" ++ String.concat ", " (map repr xs) ++ "]".

(** What [print] can be handed in this script: a formatted string or a
    list of floats. *)
Inductive value : Type :=
| VStr (s : string)
| VFloats (xs : list PrimFloat.float).

(** [str(v)], the text [print] writes before the newline. *)
Definition str (general : PrimFloat.float -> string) (v : value) : string :=
  match v with
  | VStr s => s
  | VFloats xs => list_repr (float_repr general) xs
  end.

End Py.

Import Py.

(** ** Pillow, the decoding collaborator *)

Module PIL.

(** A decoded-image object, as far as the script and its contract see it:
    its dimensions, its number of bands, and what [tobytes()] gives.
    [Image.open] is lazy: it identifies the file and reads the header;
    the pixel data is loaded by [tobytes()], which can therefore still
    raise on a truncated or corrupt file. *)
Record Image : Type := mkImage {
  im_width : nat;
  im_height : nat;
  im_bands : nat;
  im_buffer : result bytes
}.

End PIL.

Import PIL.

(** ** The host of one invocation *)

(** Everything the process is given from outside the script. *)
Record Host : Type := mkHost {
  sys_argv : list string;                      (* [sys.argv] *)
  path_exists : string -> bool;                (* [os.path.exists] *)
  pil_open : string -> result Image;           (* [Image.open] *)
  repr_general : PrimFloat.float -> string     (* see [Py.float_repr] *)
}.

(** The steps of a run that the specification speaks of. *)
Inductive step : Type :=
| ArgCheck (n : nat)                     (* [len(sys.argv)] compared with 2 *)
| ExistsCheck (p : string) (found : bool)  (* [os.path.exists(p)] *)
| Decode (p : string)                    (* [Image.open(p)] *)
| RawBytes                               (* [image.tobytes()] *)
| Print (v : value).                     (* [print(v)] *)

(** ** The monad of the script: host reader, exceptions, step log *)

Definition M (A : Type) : Type := Host -> list step -> result A * list step.

Definition ret {A : Type} (a : A) : M A := fun _ t => (Ok a, t).

Definition bind {A B : Type} (m : M A) (k : A -> M B) : M B :=
  fun h t =>
    match m h t with
    | (Ok a, t') => k a h t'
    | (Raised e, t') => (Raised e, t')
    end.

Definition raise {A : Type} (e : exception) : M A := fun _ t => (Raised e, t).

Definition host : M Host := fun h t => (Ok h, t).

Definition log (s : step) : M unit := fun _ t => (Ok tt, (t ++ [s])%list).

Definition lift {A : Type} (r : result A) : M A := fun _ t => (r, t).

Declare Scope py_scope.
Delimit Scope py_scope with py.
Notation "x <- m ;; k" := (bind m (fun x => k))
  (at level 61, m at next level, right associativity) : py_scope.
Notation "m ;; k" := (bind m (fun _ => k))
  (at level 61, right associativity) : py_scope.
Local Open Scope py_scope.

(** [len(sys.argv)] *)
Definition len_sys_argv : M nat :=
  h <- host ;;
  let n := List.length (sys_argv h) in
  log (ArgCheck n) ;;
  ret n.

(** [sys.argv[i]]: [IndexError] out of range. *)
Definition sys_argv_at (i : nat) : M string :=
  h <- host ;;
  match nth_error (sys_argv h) i with
  | Some s => ret s
  | None => raise IndexError
  end.

(** [os.path.exists(p)]: never raises, answers [False] on any OS error. *)
Definition os_path_exists (p : string) : M bool :=
  h <- host ;;
  let found := path_exists h p in
  log (ExistsCheck p found) ;;
  ret found.

(** [Image.open(p)] *)
Definition Image_open (p : string) : M Image :=
  log (Decode p) ;;
  h <- host ;;
  lift (pil_open h p).

(** [image.tobytes()] *)
Definition tobytes (image : Image) : M bytes :=
  log RawBytes ;;
  lift (im_buffer image).

(** [print(v)] *)
Definition print (v : value) : M unit := log (Print v).

(** ** The script *)

(** [main], statement by statement. *)
Definition main : M Z :=
  n <- len_sys_argv ;;
  if negb (n =? 2)%nat then
    prog <- sys_argv_at 0 ;;
    print (VStr ("Usage: " ++ prog ++ " <image>")) ;;
    ret 1%Z
  else
    p <- sys_argv_at 1 ;;
    found <- os_path_exists p ;;
    if negb found then
      p <- sys_argv_at 1 ;;
      print (VStr ("Error: " ++ p ++ " not found.")) ;;
      ret 1%Z
    else
      p <- sys_argv_at 1 ;;
      image <- Image_open p ;;
      buffer <- tobytes image ;;
      xs <- lift (comprehension (fun i => float (int_of_byte i)) buffer) ;;
      print (VFloats xs) ;;
      ret 0%Z.

(** One run of [main] from an empty log. *)
Definition run (h : Host) : result Z * list step := main h [].

Definition outcome (h : Host) : result Z := fst (run h).
Definition trace (h : Host) : list step := snd (run h).

(** The values handed to [print], in order. *)
Fixpoint printed_values (t : list step) : list value :=
  match t with
  | [] => []
  | Print v :: t' => v :: printed_values t'
  | _ :: t' => printed_values t'
  end.

Definition printed (h : Host) : list value := printed_values (trace h).

Definition newline : string := String (ascii_of_nat 10) "".

(** Standard output: each [print] writes [str(v)] and a newline. *)
Definition stdout (h : Host) : string :=
  String.concat "" (map (fun v => str (repr_general h) v ++ newline) (printed h)).

(** [exit(main())] under [if __name__ == "__main__"]: the status is the
    returned int (its low eight bits); an exception that leaves [main]
    uncaught makes the interpreter print a traceback on standard error and
    end with status 1. *)
Definition exit_status (h : Host) : Z :=
  match outcome h with
  | Ok code => Z.land code 255
  | Raised _ => 1%Z
  end.

(** ** Reading the printed text *)

(** Whether the character [c] occurs in [s]. *)
Fixpoint mentions (c : ascii) (s : string) : bool :=
  match s with
  | EmptyString => false
  | String d s' => (d =? c)%char || mentions c s'
  end.

(** The text before a final closing bracket. *)
Fixpoint strip_close (s : string) : option string :=
  match s with
  | EmptyString => None
  | String c s' =>
      match s' with
      | EmptyString => if (c =? "]")%char then Some EmptyString else None
      | String _ _ => option_map (String c) (strip_close s')
      end
  end.

Definition push_front (c : ascii) (parts : list string) : list string :=
  match parts with
  | [] => [String c EmptyString]
  | x :: xs => String c x :: xs
  end.

(** The pieces of [s] between occurrences of a comma and a space. *)
Fixpoint split_elements (s : string) : list string :=
  match s with
  | EmptyString => [EmptyString]
  | String c s' =>
      if (c =? ",")%char then
        match s' with
        | String d s'' =>
            if (d =? " ")%char then EmptyString :: split_elements s''
            else push_front c (split_elements s')
        | EmptyString => push_front c (split_elements s')
        end
      else push_front c (split_elements s')
  end.

(** The element texts of a line that is a bracketed list literal. *)
Definition list_literal_elements (line : string) : option (list string) :=
  match line with
  | String c rest =>
      if (c =? "[")%char then
        match strip_close rest with
        | Some EmptyString => Some []
        | Some body => Some (split_elements body)
        | None => None
        end
      else None
  | EmptyString => None
  end.

(** ** What the contract says of one byte *)

(** The float with the numeric value of the byte. *)
Definition widen (b : Byte.byte) : PrimFloat.float :=
  PrimFloat.of_uint63 (Uint63.of_Z (int_of_byte b)).

(** Its printed form: the decimal digits of the byte, then [.0]. *)
Definition byte_text (b : Byte.byte) : string :=
  repr_nat (int_of_byte b) ++ ".0".

(** [0.0 <= x <= 255.0], compared as floats. *)
Definition in_byte_range (x : PrimFloat.float) : bool :=
  (PrimFloat.leb 0%float x && PrimFloat.leb x 255%float)%bool.

(** The two user-facing messages. *)
Definition usage_message (prog : string) : string :=
  "Usage: " ++ prog ++ " <image>".

Definition not_found_message (p : string) : string :=
  "Error: " ++ p ++ " not found.".

(** The decoder fails on [p] with [e]: at [Image.open], or later when the
    pixel data is loaded. *)
Definition decode_fails (h : Host) (p : string) (e : exception) : Prop :=
  pil_open h p = Raised e \/
  exists im, pil_open h p = Ok im /\ im_buffer im = Raised e.

(** Position of a step in the control flow of the specification. *)
Definition phase (s : step) : nat :=
  match s with
  | ArgCheck _ => 0
  | ExistsCheck _ _ => 1
  | Decode _ => 2
  | RawBytes => 3
  | Print _ => 4
  end.

(** Two invocations are given the same input: the same argument list, and
    the same file-system content at the path that list names. *)
Definition same_input (h1 h2 : Host) : Prop :=
  sys_argv h1 = sys_argv h2 /\
  forall p, nth_error (sys_argv h1) 1 = Some p ->
            path_exists h1 p = path_exists h2 p /\
            pil_open h1 p = pil_open h2 p.

(** ** The runs of the script, case by case

    A big-step reading of the control flow: which outcome and which steps
    each kind of invocation has. *)
Inductive run_of (h : Host) : result Z -> list step -> Prop :=
| RunNoArgv :
    sys_argv h = [] ->
    run_of h (Raised IndexError) [ArgCheck 0]
| RunUsage prog args :
    sys_argv h = prog :: args ->
    List.length args <> 1 ->
    run_of h (Ok 1%Z)
      [ArgCheck (S (List.length args)); Print (VStr (usage_message prog))]
| RunMissing prog p :
    sys_argv h = [prog; p] ->
    path_exists h p = false ->
    run_of h (Ok 1%Z)
      [ArgCheck 2; ExistsCheck p false; Print (VStr (not_found_message p))]
| RunOpenRaises prog p e :
    sys_argv h = [prog; p] ->
    path_exists h p = true ->
    pil_open h p = Raised e ->
    run_of h (Raised e) [ArgCheck 2; ExistsCheck p true; Decode p]
| RunLoadRaises prog p im e :
    sys_argv h = [prog; p] ->
    path_exists h p = true ->
    pil_open h p = Ok im ->
    im_buffer im = Raised e ->
    run_of h (Raised e) [ArgCheck 2; ExistsCheck p true; Decode p; RawBytes]
| RunDumped prog p im buffer :
    sys_argv h = [prog; p] ->
    path_exists h p = true ->
    pil_open h p = Ok im ->
    im_buffer im = Ok buffer ->
    run_of h (Ok 0%Z)
      [ArgCheck 2; ExistsCheck p true; Decode p; RawBytes;
       Print (VFloats (map widen buffer))].

(** ** Sample hosts *)

Definition no_general : PrimFloat.float -> string := fun _ => "".

(** A file system holding a one-pixel greyscale image and a directory. *)
Definition sample_exists (p : string) : bool :=
  (p =? "pixel.png") || (p =? "rgb.png") || (p =? "photos") || (p =? "cut.png").

Definition sample_open (p : string) : result Image :=
  if p =? "pixel.png" then Ok (mkImage 1 1 1 (Ok [Byte.x80]))
  else if p =? "rgb.png" then
    Ok (mkImage 2 1 3 (Ok [Byte.x00; Byte.xc8; Byte.xff; Byte.x01; Byte.x0a; Byte.x64]))
  else if p =? "cut.png" then
    Ok (mkImage 4 4 3 (Raised (OSError "image file is truncated")))
  else if p =? "photos" then Raised (IsADirectoryError p)
  else Raised (FileNotFoundError p).

Definition sample_host (argv : list string) : Host :=
  mkHost argv sample_exists sample_open no_general.

(** The same file seen from two hosts that differ in everything else. *)
Definition other_host : Host :=
  mkHost ["img_to_bytes.py"; "rgb.png"]
         (fun p => p =? "rgb.png")
         (fun p => if p =? "rgb.png" then sample_open p
                   else Raised (PermissionError p))
         (fun _ => "nan").

(** An eight-pixel bilevel image, 8 by 1 with one band: its buffer packs
    eight pixels to the byte and is one byte long. *)
Definition bilevel_image : Image := mkImage 8 1 1 (Ok [Byte.xff]).

Definition bilevel_host : Host :=
  mkHost ["img_to_bytes.py"; "mask.png"]
         (fun p => p =? "mask.png")
         (fun p => if p =? "mask.png" then Ok bilevel_image
                   else Raised (FileNotFoundError p))
         no_general.

(** ** Reading a dump back *)

(** The digits of an element text, before its final [.0]. *)
Fixpoint strip_point_zero (s : string) : option string :=
  match s with
  | EmptyString => None
  | String c s' =>
      if ((c =? ".")%char && (s' =? "0"))%bool then Some EmptyString
      else option_map (String c) (strip_point_zero s')
  end.

(** The byte an element text stands for. *)
Definition byte_of_text (s : string) : option Byte.byte :=
  match strip_point_zero s with
  | Some digits =>
      match NilZero.uint_of_string digits with
      | Some u => Byte.of_N (N.of_uint u)
      | None => None
      end
  | None => None
  end.

Fixpoint read_elements (elements : list string) : option bytes :=
  match elements with
  | [] => Some []
  | e :: rest =>
      match byte_of_text e, read_elements rest with
      | Some b, Some bs => Some (b :: bs)
      | _, _ => None
      end
  end.

(** The buffer a printed line was dumped from. *)
Definition read_dump (line : string) : option bytes :=
  match list_literal_elements line with
  | Some elements => read_elements elements
  | None => None
  end.

(** The invocation names an existing file that decodes to [buffer]. *)
Definition dumps (h : Host) (buffer : bytes) : Prop :=
  exists prog p im,
    sys_argv h = [prog; p] /\
    path_exists h p = true /\
    pil_open h p = Ok im /\
    im_buffer im = Ok buffer.

(** The six bytes of [rgb.png] again, under another program name, another
    path and other dimensions. *)
Definition reshaped_host : Host :=
  mkHost ["dump"; "grey.bmp"]
         (fun _ => true)
         (fun _ => Ok (mkImage 3 2 1
                         (Ok [Byte.x00; Byte.xc8; Byte.xff;
                              Byte.x01; Byte.x0a; Byte.x64])))
         no_general.

(** * Verification *)

(** ** Bytes as floats *)

Ltac each_byte b := destruct b; vm_compute; reflexivity.

Lemma float_of_byte (b : Byte.byte) : float (int_of_byte b) = Ok (widen b).
Proof. each_byte b. Qed.

Lemma widen_exact (b : Byte.byte) :
  float_as_integer (widen b) = Some (int_of_byte b).
Proof. each_byte b. Qed.

Lemma widen_in_range (b : Byte.byte) : in_byte_range (widen b) = true.
Proof. each_byte b. Qed.

Lemma widen_repr (general : PrimFloat.float -> string) (b : Byte.byte) :
  float_repr general (widen b) = byte_text b.
Proof. each_byte b. Qed.

Lemma byte_text_no_comma (b : Byte.byte) : mentions "," (byte_text b) = false.
Proof. each_byte b. Qed.

Lemma byte_text_no_newline (b : Byte.byte) :
  mentions (ascii_of_nat 10) (byte_text b) = false.
Proof. each_byte b. Qed.

Lemma byte_text_nonempty (b : Byte.byte) :
  exists c s, byte_text b = String c s.
Proof. destruct b; vm_compute; eauto. Qed.

Lemma comprehension_float (buffer : bytes) :
  comprehension (fun i => float (int_of_byte i)) buffer = Ok (map widen buffer).
Proof.
  induction buffer as [|b buffer IH]; simpl.
  - reflexivity.
  - rewrite float_of_byte, IH. reflexivity.
Qed.

Lemma map_repr_widen (general : PrimFloat.float -> string) (buffer : bytes) :
  map (float_repr general) (map widen buffer) = map byte_text buffer.
Proof.
  rewrite map_map. apply map_ext. intros b. apply widen_repr.
Qed.

(** ** The runs of [main] *)

Ltac unfold_script :=
  unfold run, main, len_sys_argv, sys_argv_at, os_path_exists, Image_open,
    tobytes, print, bind, host, log, lift, ret, raise.

(** Evaluate the script as far as the known fact [H] allows. *)
Ltac eval_script_with H :=
  unfold_script; repeat first [rewrite H | progress simpl].

Lemma run_no_argv (h : Host) :
  sys_argv h = [] -> run h = (Raised IndexError, [ArgCheck 0]).
Proof. intros Hargv. eval_script_with Hargv. reflexivity. Qed.

Lemma run_usage (h : Host) (prog : string) (args : list string) :
  sys_argv h = prog :: args ->
  List.length args <> 1 ->
  run h = (Ok 1%Z,
           [ArgCheck (S (List.length args)); Print (VStr (usage_message prog))]).
Proof.
  intros Hargv Hlen.
  destruct args as [|a [|b rest]]; eval_script_with Hargv; try reflexivity.
  exfalso. apply Hlen. reflexivity.
Qed.

Lemma run_missing (h : Host) (prog p : string) :
  sys_argv h = [prog; p] ->
  path_exists h p = false ->
  run h = (Ok 1%Z,
           [ArgCheck 2; ExistsCheck p false; Print (VStr (not_found_message p))]).
Proof.
  intros Hargv Hex. eval_script_with Hargv. rewrite Hex. simpl.
  eval_script_with Hargv. reflexivity.
Qed.

Lemma run_open_raises (h : Host) (prog p : string) (e : exception) :
  sys_argv h = [prog; p] ->
  path_exists h p = true ->
  pil_open h p = Raised e ->
  run h = (Raised e, [ArgCheck 2; ExistsCheck p true; Decode p]).
Proof.
  intros Hargv Hex Hopen. eval_script_with Hargv. rewrite Hex. simpl.
  eval_script_with Hargv. rewrite Hopen. reflexivity.
Qed.

Lemma run_load_raises (h : Host) (prog p : string) (im : Image) (e : exception) :
  sys_argv h = [prog; p] ->
  path_exists h p = true ->
  pil_open h p = Ok im ->
  im_buffer im = Raised e ->
  run h = (Raised e, [ArgCheck 2; ExistsCheck p true; Decode p; RawBytes]).
Proof.
  intros Hargv Hex Hopen Hbuf. eval_script_with Hargv. rewrite Hex. simpl.
  eval_script_with Hargv. rewrite Hopen, Hbuf. reflexivity.
Qed.

Lemma run_dumped (h : Host) (prog p : string) (im : Image) (buffer : bytes) :
  sys_argv h = [prog; p] ->
  path_exists h p = true ->
  pil_open h p = Ok im ->
  im_buffer im = Ok buffer ->
  run h = (Ok 0%Z,
           [ArgCheck 2; ExistsCheck p true; Decode p; RawBytes;
            Print (VFloats (map widen buffer))]).
Proof.
  intros Hargv Hex Hopen Hbuf. eval_script_with Hargv. rewrite Hex. simpl.
  eval_script_with Hargv. rewrite Hopen, Hbuf, comprehension_float.
  reflexivity.
Qed.

(** Every run of [main] is one of the six cases of [run_of]. *)
Lemma run_of_main (h : Host) : run_of h (outcome h) (trace h).
Proof.
  unfold outcome, trace.
  destruct (sys_argv h) as [|prog args] eqn:Hargv.
  - rewrite (run_no_argv h Hargv). now constructor.
  - destruct (Nat.eq_dec (List.length args) 1) as [Hone | Hnot].
    + destruct args as [|p [|q rest]]; try discriminate Hone.
      destruct (path_exists h p) eqn:Hex.
      * destruct (pil_open h p) as [im | e] eqn:Hopen.
        -- destruct (im_buffer im) as [buffer | e] eqn:Hbuf.
           ++ rewrite (run_dumped h prog p im buffer Hargv Hex Hopen Hbuf).
              now apply RunDumped with (prog := prog) (im := im).
           ++ rewrite (run_load_raises h prog p im e Hargv Hex Hopen Hbuf).
              now apply RunLoadRaises with (prog := prog) (im := im).
        -- rewrite (run_open_raises h prog p e Hargv Hex Hopen).
           now apply RunOpenRaises with (prog := prog).
      * rewrite (run_missing h prog p Hargv Hex).
        now apply RunMissing with (prog := prog).
    + rewrite (run_usage h prog args Hargv Hnot).
      now apply RunUsage.
Qed.

Lemma run_outcome (h : Host) (r : result Z) (t : list step) :
  run h = (r, t) -> outcome h = r.
Proof. unfold outcome. intros ->. reflexivity. Qed.

Lemma run_trace (h : Host) (r : result Z) (t : list step) :
  run h = (r, t) -> trace h = t.
Proof. unfold trace. intros ->. reflexivity. Qed.

(** ** The text of a printed list *)

Lemma mentions_app (c : ascii) (a b : string) :
  mentions c (a ++ b) = mentions c a || mentions c b.
Proof.
  induction a as [|d a IH]; simpl.
  - reflexivity.
  - rewrite IH. apply orb_assoc.
Qed.

Lemma strip_close_app (s : string) : strip_close (s ++ "]") = Some s.
Proof.
  induction s as [|c s IH].
  - reflexivity.
  - change (String c s ++ "]") with (String c (s ++ "]")).
    cbn [strip_close]. rewrite IH.
    destruct s; reflexivity.
Qed.

Lemma split_elements_plain (x : string) :
  mentions "," x = false -> split_elements x = [x].
Proof.
  induction x as [|c x IH]; simpl; intros Hx.
  - reflexivity.
  - apply orb_false_iff in Hx as [Hc Hx].
    rewrite Hc, (IH Hx). reflexivity.
Qed.

Lemma split_elements_cons (x rest : string) :
  mentions "," x = false ->
  split_elements (x ++ ", " ++ rest) = x :: split_elements rest.
Proof.
  induction x as [|c x IH]; simpl in *; intros Hx.
  - reflexivity.
  - apply orb_false_iff in Hx as [Hc Hx].
    rewrite Hc, (IH Hx). reflexivity.
Qed.

Lemma split_elements_concat (x : string) (xs : list string) :
  Forall (fun y => mentions "," y = false) (x :: xs) ->
  split_elements (String.concat ", " (x :: xs)) = x :: xs.
Proof.
  revert x. induction xs as [|y ys IH]; intros x Hall.
  - apply split_elements_plain. now inversion Hall.
  - inversion Hall as [|? ? Hx Hrest]; subst.
    change (String.concat ", " (x :: y :: ys))
      with (x ++ ", " ++ String.concat ", " (y :: ys)).
    rewrite (split_elements_cons _ _ Hx), (IH y Hrest). reflexivity.
Qed.

Lemma concat_no_newline (items : list string) :
  Forall (fun y => mentions (ascii_of_nat 10) y = false) items ->
  mentions (ascii_of_nat 10) (String.concat ", " items) = false.
Proof.
  induction items as [|x [|y ys] IH]; intros Hall.
  - reflexivity.
  - now inversion Hall.
  - inversion Hall as [|? ? Hx Hrest]; subst.
    change (String.concat ", " (x :: y :: ys))
      with (x ++ ", " ++ String.concat ", " (y :: ys)).
    rewrite !mentions_app, Hx, (IH Hrest). reflexivity.
Qed.

(** Reading back the list literal of a buffer gives one text per byte. *)
Lemma elements_of_list_repr (buffer : bytes) :
  list_literal_elements (list_repr byte_text buffer)
  = Some (map byte_text buffer).
Proof.
  unfold list_repr.
  change ("[" ++ String.concat ", " (map byte_text buffer) ++ "]")
    with (String "[" (String.concat ", " (map byte_text buffer) ++ "]")).
  unfold list_literal_elements.
  rewrite Ascii.eqb_refl, strip_close_app.
  destruct buffer as [|b buffer].
  - reflexivity.
  - assert (Hsplit : split_elements (String.concat ", " (map byte_text (b :: buffer)))
                     = map byte_text (b :: buffer)).
    { simpl map. apply split_elements_concat.
      rewrite <- map_cons. apply Forall_map, Forall_forall.
      intros b' _. apply byte_text_no_comma. }
    rewrite Hsplit.
    destruct (String.concat ", " (map byte_text (b :: buffer))) eqn:Hbody.
    + cbn [split_elements map] in Hsplit.
      destruct (byte_text_nonempty b) as (c & s & Hb).
      rewrite Hb in Hsplit. discriminate Hsplit.
    + reflexivity.
Qed.

Lemma list_repr_one_line (buffer : bytes) :
  mentions (ascii_of_nat 10) (list_repr byte_text buffer) = false.
Proof.
  unfold list_repr. rewrite !mentions_app, concat_no_newline.
  - reflexivity.
  - apply Forall_map, Forall_forall. intros b _. apply byte_text_no_newline.
Qed.

(** ** Standard output of each kind of run *)

Lemma stdout_of_trace (h : Host) (r : result Z) (t : list step) :
  run h = (r, t) ->
  stdout h =
  String.concat "" (map (fun v => str (repr_general h) v ++ newline)
                        (printed_values t)).
Proof. intros Hrun. unfold stdout, printed. now rewrite (run_trace h r t Hrun). Qed.

Lemma stdout_dumped (h : Host) (prog p : string) (im : Image) (buffer : bytes) :
  sys_argv h = [prog; p] ->
  path_exists h p = true ->
  pil_open h p = Ok im ->
  im_buffer im = Ok buffer ->
  stdout h = list_repr byte_text buffer ++ newline.
Proof.
  intros Hargv Hex Hopen Hbuf.
  rewrite (stdout_of_trace h _ _ (run_dumped h prog p im buffer Hargv Hex Hopen Hbuf)).
  simpl. unfold list_repr. rewrite map_repr_widen. reflexivity.
Qed.

Lemma stdout_nothing_printed (h : Host) (r : result Z) (t : list step) :
  run h = (r, t) -> printed_values t = [] -> stdout h = "".
Proof.
  intros Hrun Hnone. rewrite (stdout_of_trace h r t Hrun), Hnone. reflexivity.
Qed.

Lemma stdout_message (h : Host) (r : result Z) (t : list step) (s : string) :
  run h = (r, t) -> printed_values t = [VStr s] -> stdout h = s ++ newline.
Proof.
  intros Hrun Hone. rewrite (stdout_of_trace h r t Hrun), Hone. reflexivity.
Qed.

Lemma exit_status_of (h : Host) (r : result Z) (t : list step) :
  run h = (r, t) ->
  exit_status h = match r with Ok code => Z.land code 255 | Raised _ => 1%Z end.
Proof. intros Hrun. unfold exit_status. now rewrite (run_outcome h r t Hrun). Qed.

(** [run_of] describes [run] and nothing else. *)
Lemma run_of_sound (h : Host) (r : result Z) (t : list step) :
  run_of h r t -> run h = (r, t).
Proof.
  intros [Hargv | prog args Hargv Hlen | prog p Hargv Hex
         | prog p e Hargv Hex Hopen | prog p im e Hargv Hex Hopen Hbuf
         | prog p im buffer Hargv Hex Hopen Hbuf].
  - now apply run_no_argv.
  - now apply run_usage.
  - now apply run_missing with (prog := prog).
  - now apply run_open_raises with (prog := prog).
  - now apply run_load_raises with (prog := prog) (im := im).
  - now apply run_dumped with (prog := prog) (im := im).
Qed.

(** Case analysis on the run of [h]: the goal is restated over the outcome
    and the steps of each case. *)
Ltac run_cases h :=
  let R := fresh "R" in
  pose proof (run_of_main h) as R;
  unfold exit_status, stdout, printed in *;
  let r := fresh "r" in
  let t := fresh "t" in
  remember (outcome h) as r; remember (trace h) as t;
  destruct R.

(** ** The two user-facing messages *)

(** C3: when the number of arguments after the program name is not exactly
    one, the program prints [Usage: <program> <image>] and returns 1. *)
Theorem usage_on_wrong_argument_count
  (h : Host) (prog : string) (args : list string) :
  sys_argv h = prog :: args ->
  List.length args <> 1 ->
  outcome h = Ok 1%Z /\
  printed h = [VStr ("Usage: " ++ prog ++ " <image>")] /\
  stdout h = ("Usage: " ++ prog ++ " <image>") ++ newline /\
  exit_status h = 1%Z.
Proof.
  intros Hargv Hlen.
  pose proof (run_usage h prog args Hargv Hlen) as Hrun.
  repeat split.
  - exact (run_outcome _ _ _ Hrun).
  - unfold printed. now rewrite (run_trace _ _ _ Hrun).
  - rewrite (stdout_message h _ _ (usage_message prog) Hrun) by reflexivity.
    reflexivity.
  - now rewrite (exit_status_of _ _ _ Hrun).
Qed.

Lemma usage_on_wrong_argument_count_witness :
  let h := sample_host ["img_to_bytes.py"] in
  outcome h = Ok 1%Z /\
  printed h = [VStr "Usage: img_to_bytes.py <image>"] /\
  stdout h = "Usage: img_to_bytes.py <image>" ++ newline /\
  exit_status h = 1%Z.
Proof.
  apply (usage_on_wrong_argument_count
           (sample_host ["img_to_bytes.py"]) "img_to_bytes.py" []).
  - reflexivity.
  - simpl. lia.
Defined.

(** C4: with one argument naming a path that does not exist, the program
    prints [Error: <path> not found.] and returns 1. *)
Theorem not_found_on_missing_path (h : Host) (prog p : string) :
  sys_argv h = [prog; p] ->
  path_exists h p = false ->
  outcome h = Ok 1%Z /\
  printed h = [VStr ("Error: " ++ p ++ " not found.")] /\
  stdout h = ("Error: " ++ p ++ " not found.") ++ newline /\
  exit_status h = 1%Z.
Proof.
  intros Hargv Hex.
  pose proof (run_missing h prog p Hargv Hex) as Hrun.
  repeat split.
  - exact (run_outcome _ _ _ Hrun).
  - unfold printed. now rewrite (run_trace _ _ _ Hrun).
  - rewrite (stdout_message h _ _ (not_found_message p) Hrun) by reflexivity.
    reflexivity.
  - now rewrite (exit_status_of _ _ _ Hrun).
Qed.

Lemma not_found_on_missing_path_witness :
  let h := sample_host ["img_to_bytes.py"; "missing.png"] in
  outcome h = Ok 1%Z /\
  printed h = [VStr "Error: missing.png not found."] /\
  stdout h = "Error: missing.png not found." ++ newline /\
  exit_status h = 1%Z.
Proof.
  apply (not_found_on_missing_path
           (sample_host ["img_to_bytes.py"; "missing.png"])
           "img_to_bytes.py" "missing.png").
  - reflexivity.
  - reflexivity.
Defined.

(** ** The dump *)

(** C5: with one argument naming an existing image that decodes, the
    program prints one line, the bracketed list literal of the buffer's
    bytes as floats separated by a comma and a space, and returns 0. *)
Theorem dump_is_list_literal
  (h : Host) (prog p : string) (im : Image) (buffer : bytes) :
  sys_argv h = [prog; p] ->
  path_exists h p = true ->
  pil_open h p = Ok im ->
  im_buffer im = Ok buffer ->
  outcome h = Ok 0%Z /\
  exit_status h = 0%Z /\
  stdout h = ("[" ++ String.concat ", " (map byte_text buffer) ++ "]") ++ newline /\
  mentions (ascii_of_nat 10)
    ("[" ++ String.concat ", " (map byte_text buffer) ++ "]") = false /\
  list_literal_elements ("[" ++ String.concat ", " (map byte_text buffer) ++ "]")
  = Some (map byte_text buffer).
Proof.
  intros Hargv Hex Hopen Hbuf.
  pose proof (run_dumped h prog p im buffer Hargv Hex Hopen Hbuf) as Hrun.
  repeat split.
  - exact (run_outcome _ _ _ Hrun).
  - now rewrite (exit_status_of _ _ _ Hrun).
  - exact (stdout_dumped h prog p im buffer Hargv Hex Hopen Hbuf).
  - exact (list_repr_one_line buffer).
  - exact (elements_of_list_repr buffer).
Qed.

Lemma dump_is_list_literal_witness :
  let h := sample_host ["img_to_bytes.py"; "pixel.png"] in
  outcome h = Ok 0%Z /\
  exit_status h = 0%Z /\
  stdout h = "[128.0]" ++ newline /\
  mentions (ascii_of_nat 10) "[128.0]" = false /\
  list_literal_elements "[128.0]" = Some ["128.0"].
Proof.
  apply (dump_is_list_literal
           (sample_host ["img_to_bytes.py"; "pixel.png"])
           "img_to_bytes.py" "pixel.png"
           (mkImage 1 1 1 (Ok [Byte.x80])) [Byte.x80]);
    reflexivity.
Defined.

(** C1, as amended: on a valid image the printed sequence has exactly one
    number per byte of the decoded pixel buffer, whatever the layout of
    that buffer: both the list handed to [print] and the elements of the
    printed text number [len(image.tobytes())]. *)
Theorem printed_length_is_buffer_length
  (h : Host) (prog p : string) (im : Image) (buffer : bytes) :
  sys_argv h = [prog; p] ->
  path_exists h p = true ->
  pil_open h p = Ok im ->
  im_buffer im = Ok buffer ->
  exists xs line elements,
    printed h = [VFloats xs] /\
    List.length xs = List.length buffer /\
    stdout h = line ++ newline /\
    list_literal_elements line = Some elements /\
    List.length elements = List.length buffer.
Proof.
  intros Hargv Hex Hopen Hbuf.
  pose proof (run_dumped h prog p im buffer Hargv Hex Hopen Hbuf) as Hrun.
  exists (map widen buffer), (list_repr byte_text buffer), (map byte_text buffer).
  repeat split.
  - unfold printed. now rewrite (run_trace _ _ _ Hrun).
  - apply length_map.
  - exact (stdout_dumped h prog p im buffer Hargv Hex Hopen Hbuf).
  - exact (elements_of_list_repr buffer).
  - apply length_map.
Qed.

Lemma printed_length_is_buffer_length_witness :
  let h := sample_host ["img_to_bytes.py"; "rgb.png"] in
  exists xs line elements,
    printed h = [VFloats xs] /\
    List.length xs = 6 /\
    stdout h = line ++ newline /\
    list_literal_elements line = Some elements /\
    List.length elements = 6.
Proof.
  apply (printed_length_is_buffer_length
           (sample_host ["img_to_bytes.py"; "rgb.png"])
           "img_to_bytes.py" "rgb.png"
           (mkImage 2 1 3
              (Ok [Byte.x00; Byte.xc8; Byte.xff; Byte.x01; Byte.x0a; Byte.x64]))
           [Byte.x00; Byte.xc8; Byte.xff; Byte.x01; Byte.x0a; Byte.x64]);
    reflexivity.
Defined.

(** C1, as stated, fails: the count is not [width * height * channels] for
    every valid image.  The bilevel image is 8 by 1 with one band, its
    buffer holds one byte, and the script prints one number, not eight. *)
Lemma bilevel_image_prints_one_number :
  let h := bilevel_host in
  sys_argv h = ["img_to_bytes.py"; "mask.png"] /\
  path_exists h "mask.png" = true /\
  pil_open h "mask.png" = Ok bilevel_image /\
  im_buffer bilevel_image = Ok [Byte.xff] /\
  im_width bilevel_image * im_height bilevel_image * im_bands bilevel_image = 8 /\
  outcome h = Ok 0%Z /\
  printed h = [VFloats [255%float]] /\
  stdout h = "[255.0]" ++ newline /\
  ~ (exists xs,
       printed h = [VFloats xs] /\
       List.length xs
       = im_width bilevel_image * im_height bilevel_image * im_bands bilevel_image).
Proof.
  repeat split; try reflexivity.
  intros (xs & Hprinted & Hlen).
  assert (Hone : printed bilevel_host = [VFloats [255%float]]) by reflexivity.
  rewrite Hone in Hprinted. injection Hprinted as <-.
  discriminate Hlen.
Qed.

(** C2: every byte of the buffer is widened to the float of the same
    numeric value, printed as the byte's digits followed by [.0], so every
    printed value lies in [0.0, 255.0]. *)
Theorem bytes_widen_exactly
  (h : Host) (prog p : string) (im : Image) (buffer : bytes) :
  sys_argv h = [prog; p] ->
  path_exists h p = true ->
  pil_open h p = Ok im ->
  im_buffer im = Ok buffer ->
  exists xs,
    printed h = [VFloats xs] /\
    Forall2 (fun b x =>
               float (int_of_byte b) = Ok x /\
               float_as_integer x = Some (int_of_byte b) /\
               float_repr (repr_general h) x = repr_nat (int_of_byte b) ++ ".0")
            buffer xs /\
    Forall (fun x => in_byte_range x = true) xs.
Proof.
  intros Hargv Hex Hopen Hbuf.
  pose proof (run_dumped h prog p im buffer Hargv Hex Hopen Hbuf) as Hrun.
  exists (map widen buffer). repeat split.
  - unfold printed. now rewrite (run_trace _ _ _ Hrun).
  - clear. induction buffer as [|b buffer IH]; simpl; constructor.
    + repeat split.
      * apply float_of_byte.
      * apply widen_exact.
      * apply (widen_repr (repr_general h) b).
    + exact IH.
  - apply Forall_map, Forall_forall. intros b _. apply widen_in_range.
Qed.

Lemma bytes_widen_exactly_witness :
  let h := sample_host ["img_to_bytes.py"; "rgb.png"] in
  exists xs,
    printed h = [VFloats xs] /\
    Forall2 (fun b x =>
               float (int_of_byte b) = Ok x /\
               float_as_integer x = Some (int_of_byte b) /\
               float_repr (repr_general h) x = repr_nat (int_of_byte b) ++ ".0")
            [Byte.x00; Byte.xc8; Byte.xff; Byte.x01; Byte.x0a; Byte.x64] xs /\
    Forall (fun x => in_byte_range x = true) xs.
Proof.
  apply (bytes_widen_exactly
           (sample_host ["img_to_bytes.py"; "rgb.png"])
           "img_to_bytes.py" "rgb.png"
           (mkImage 2 1 3
              (Ok [Byte.x00; Byte.xc8; Byte.xff; Byte.x01; Byte.x0a; Byte.x64])));
    reflexivity.
Defined.

Example byte_200_prints_200_0 (general : PrimFloat.float -> string) :
  float (int_of_byte Byte.xc8) = Ok 200%float /\
  float_repr general 200%float = "200.0".
Proof. split; reflexivity. Qed.

(** ** Failures of the decoder *)

(** C6: when the path exists but the file does not decode, the decoder's
    exception leaves [main] uncaught: nothing is printed, and the process
    ends with a non-zero status. *)
Theorem decode_failure_propagates
  (h : Host) (prog p : string) (e : exception) :
  sys_argv h = [prog; p] ->
  path_exists h p = true ->
  decode_fails h p e ->
  outcome h = Raised e /\
  printed h = [] /\
  stdout h = "" /\
  exit_status h <> 0%Z.
Proof.
  intros Hargv Hex [Hopen | (im & Hopen & Hbuf)].
  - pose proof (run_open_raises h prog p e Hargv Hex Hopen) as Hrun.
    repeat split.
    + exact (run_outcome _ _ _ Hrun).
    + unfold printed. now rewrite (run_trace _ _ _ Hrun).
    + now apply (stdout_nothing_printed h _ _ Hrun).
    + rewrite (exit_status_of _ _ _ Hrun). discriminate.
  - pose proof (run_load_raises h prog p im e Hargv Hex Hopen Hbuf) as Hrun.
    repeat split.
    + exact (run_outcome _ _ _ Hrun).
    + unfold printed. now rewrite (run_trace _ _ _ Hrun).
    + now apply (stdout_nothing_printed h _ _ Hrun).
    + rewrite (exit_status_of _ _ _ Hrun). discriminate.
Qed.

Lemma decode_failure_propagates_witness :
  let h := sample_host ["img_to_bytes.py"; "cut.png"] in
  outcome h = Raised (OSError "image file is truncated") /\
  printed h = [] /\
  stdout h = "" /\
  exit_status h <> 0%Z.
Proof.
  apply (decode_failure_propagates
           (sample_host ["img_to_bytes.py"; "cut.png"])
           "img_to_bytes.py" "cut.png" (OSError "image file is truncated")).
  - reflexivity.
  - reflexivity.
  - right. exists (mkImage 4 4 3 (Raised (OSError "image file is truncated"))).
    split; reflexivity.
Defined.

(** C10: for a path that exists, whatever it is, the not-found message is
    not printed; the run goes on to the decoder, and the only exception
    that can leave [main] is the decoder's. *)
Theorem existing_path_reaches_decoder (h : Host) (prog p : string) :
  sys_argv h = [prog; p] ->
  path_exists h p = true ->
  In (ExistsCheck p true) (trace h) /\
  In (Decode p) (trace h) /\
  (forall q, ~ In (VStr ("Error: " ++ q ++ " not found.")) (printed h)) /\
  (forall q, stdout h <> ("Error: " ++ q ++ " not found.") ++ newline) /\
  (forall e, outcome h = Raised e -> decode_fails h p e).
Proof.
  intros Hargv Hex.
  destruct (pil_open h p) as [im | e] eqn:Hopen;
    [destruct (im_buffer im) as [buffer | e] eqn:Hbuf |].
  - pose proof (run_dumped h prog p im buffer Hargv Hex Hopen Hbuf) as Hrun.
    rewrite (stdout_dumped h prog p im buffer Hargv Hex Hopen Hbuf).
    unfold printed. rewrite (run_trace _ _ _ Hrun), (run_outcome _ _ _ Hrun).
    simpl. repeat split; auto.
    + intros q [Hq | []]. discriminate Hq.
    + intros q Hq. discriminate Hq.
    + intros e He. discriminate He.
  - pose proof (run_load_raises h prog p im e Hargv Hex Hopen Hbuf) as Hrun.
    rewrite (stdout_nothing_printed h _ _ Hrun) by reflexivity.
    unfold printed. rewrite (run_trace _ _ _ Hrun), (run_outcome _ _ _ Hrun).
    simpl. repeat split; auto.
    + intros q Hq. discriminate Hq.
    + intros e' He. injection He as <-. right. now exists im.
  - pose proof (run_open_raises h prog p e Hargv Hex Hopen) as Hrun.
    rewrite (stdout_nothing_printed h _ _ Hrun) by reflexivity.
    unfold printed. rewrite (run_trace _ _ _ Hrun), (run_outcome _ _ _ Hrun).
    simpl. repeat split; auto.
    + intros q Hq. discriminate Hq.
    + intros e' He. injection He as <-. now left.
Qed.

Lemma existing_path_reaches_decoder_witness :
  let h := sample_host ["img_to_bytes.py"; "photos"] in
  In (ExistsCheck "photos" true) (trace h) /\
  In (Decode "photos") (trace h) /\
  (forall q, ~ In (VStr ("Error: " ++ q ++ " not found.")) (printed h)) /\
  (forall q, stdout h <> ("Error: " ++ q ++ " not found.") ++ newline) /\
  (forall e, outcome h = Raised e -> decode_fails h "photos" e).
Proof.
  apply (existing_path_reaches_decoder
           (sample_host ["img_to_bytes.py"; "photos"])
           "img_to_bytes.py" "photos");
    reflexivity.
Defined.

(** ** Exit codes *)

(** C9: when [main] returns, it returns 0 or 1, and that is the status of
    the process. *)
Theorem normal_return_is_0_or_1 (h : Host) (code : Z) :
  outcome h = Ok code ->
  (code = 0%Z \/ code = 1%Z) /\ exit_status h = code.
Proof.
  intros Hret. unfold exit_status. rewrite Hret.
  pose proof (run_of_main h) as R. rewrite Hret in R.
  inversion R; subst; split; auto.
Qed.

Lemma normal_return_is_0_or_1_witness :
  (0 = 0 \/ 0 = 1)%Z /\
  exit_status (sample_host ["img_to_bytes.py"; "pixel.png"]) = 0%Z.
Proof.
  apply (normal_return_is_0_or_1
           (sample_host ["img_to_bytes.py"; "pixel.png"]) 0%Z).
  reflexivity.
Defined.

(** ** Order of the steps *)

Lemma length_append (a b : string) :
  String.length (a ++ b) = String.length a + String.length b.
Proof. induction a as [|c a IH]; simpl; [reflexivity | now rewrite IH]. Qed.

Lemma append_cancel_r (s a b : string) : a ++ s = b ++ s -> a = b.
Proof.
  revert b. induction a as [|c a IH]; intros [|d b] Heq; simpl in Heq.
  - reflexivity.
  - apply (f_equal String.length) in Heq. simpl in Heq.
    rewrite length_append in Heq. lia.
  - apply (f_equal String.length) in Heq. simpl in Heq.
    rewrite length_append in Heq. lia.
  - injection Heq as -> Heq. now rewrite (IH b Heq).
Qed.

(** Members of a short, explicit list of steps, one at a time. *)
Ltac pick_step H :=
  simpl in H;
  repeat match type of H with
         | _ \/ _ => destruct H as [H | H]
         | False => destruct H
         end;
  try discriminate H.

Ltac close_step_goal :=
  repeat match goal with
         | H : Print _ = Print ?v |- _ => is_var v; injection H as H; subst v
         end;
  match goal with
  | |- exists before, ?t = (before ++ _)%list =>
      exists (removelast t); reflexivity
  | |- exists n, n <> 2 /\ In _ (ArgCheck ?m :: _) =>
      exists m; split; [lia | now left]
  | H : Print (VStr _) = Print (VStr _) |- In (ExistsCheck _ false) _ =>
      injection H as H; apply append_cancel_r in H; subst; simpl; auto
  | |- _ => simpl in *; first [lia | congruence | intuition congruence]
  end.

(** C8: the steps of every run come in the order argument check, existence
    check, decode, raw bytes, print, each at most once; the decoder is not
    called when the argument count is wrong or the path is missing; a
    message is the last step of its run and comes after the check that
    triggers it. *)
Theorem steps_in_fixed_order (h : Host) :
  hd_error (trace h) = Some (ArgCheck (List.length (sys_argv h))) /\
  StronglySorted (fun a b => phase a < phase b) (trace h) /\
  (List.length (sys_argv h) <> 2 ->
   forall s, In s (trace h) -> phase s = 0 \/ phase s = 4) /\
  (forall p, nth_error (sys_argv h) 1 = Some p -> path_exists h p = false ->
   forall s, In s (trace h) -> phase s <> 2 /\ phase s <> 3) /\
  (forall p, In (Decode p) (trace h) ->
   List.length (sys_argv h) = 2 /\ In (ExistsCheck p true) (trace h)) /\
  (forall v, In (Print v) (trace h) ->
   exists before, trace h = (before ++ [Print v])%list) /\
  (forall prog, In (Print (VStr ("Usage: " ++ prog ++ " <image>"))) (trace h) ->
   exists n, n <> 2 /\ In (ArgCheck n) (trace h)) /\
  (forall p, In (Print (VStr ("Error: " ++ p ++ " not found."))) (trace h) ->
   In (ExistsCheck p false) (trace h)).
Proof.
  run_cases h;
    match goal with Hargv : sys_argv h = _ |- _ => rewrite Hargv end;
    (split; [reflexivity |]);
    (split; [repeat constructor |]).
  all: repeat split.
  all: intros; try match goal with H : In _ _ |- _ => pick_step H end.
  all: subst; close_step_goal.
Qed.

Lemma steps_in_fixed_order_witness :
  let h := sample_host ["img_to_bytes.py"; "rgb.png"] in
  StronglySorted (fun a b => phase a < phase b) (trace h) /\
  List.length (sys_argv h) = 2 /\ In (ExistsCheck "rgb.png" true) (trace h).
Proof.
  pose proof (steps_in_fixed_order
                (sample_host ["img_to_bytes.py"; "rgb.png"]))
    as (_ & Hsorted & _ & _ & Hdecode & _).
  split.
  - exact Hsorted.
  - apply Hdecode. simpl. auto.
Defined.

(** ** Determinism *)

(** A run is decided by the argument list and by what the file system and
    the decoder answer at the named path. *)
Lemma run_of_same_input (h1 h2 : Host) (r : result Z) (t : list step) :
  same_input h1 h2 -> run_of h1 r t -> run_of h2 r t.
Proof.
  intros [Hargv Hpath] R.
  destruct R as [Hnil | prog args Hcons Hlen | prog p Hcons Hex
                | prog p e Hcons Hex Hopen | prog p im e Hcons Hex Hopen Hbuf
                | prog p im buffer Hcons Hex Hopen Hbuf];
    rewrite Hargv in *.
  - now apply RunNoArgv.
  - now apply RunUsage.
  - destruct (Hpath p) as [Hsame _]; [now rewrite Hcons |].
    apply RunMissing with (prog := prog); congruence.
  - destruct (Hpath p) as [Hsame Hdec]; [now rewrite Hcons |].
    apply RunOpenRaises with (prog := prog); congruence.
  - destruct (Hpath p) as [Hsame Hdec]; [now rewrite Hcons |].
    apply RunLoadRaises with (prog := prog) (im := im); congruence.
  - destruct (Hpath p) as [Hsame Hdec]; [now rewrite Hcons |].
    apply RunDumped with (prog := prog) (im := im); congruence.
Qed.

(** The text of what a run prints does not depend on the interpreter's
    general float formatter: every float printed is a widened byte. *)
Lemma printed_text_fixed (h : Host) (r : result Z) (t : list step)
  (general : PrimFloat.float -> string) :
  run_of h r t ->
  map (fun v => str general v ++ newline) (printed_values t)
  = map (fun v => str no_general v ++ newline) (printed_values t).
Proof.
  intros R. destruct R; simpl; try reflexivity.
  unfold list_repr. now rewrite !map_repr_widen.
Qed.

(** C7: two invocations with the same argument list and the same content at
    the named path have the same outcome, the same output and the same exit
    status, whatever else differs between them. *)
Theorem same_input_same_output (h1 h2 : Host) :
  same_input h1 h2 ->
  outcome h1 = outcome h2 /\
  trace h1 = trace h2 /\
  stdout h1 = stdout h2 /\
  exit_status h1 = exit_status h2.
Proof.
  intros Hsame.
  pose proof (run_of_main h1) as R1.
  pose proof (run_of_sound h2 _ _ (run_of_same_input h1 h2 _ _ Hsame R1)) as Hrun2.
  assert (Hout : outcome h1 = outcome h2)
    by (symmetry; exact (run_outcome _ _ _ Hrun2)).
  assert (Htrace : trace h1 = trace h2)
    by (symmetry; exact (run_trace _ _ _ Hrun2)).
  repeat split.
  - exact Hout.
  - exact Htrace.
  - unfold stdout, printed. rewrite <- Htrace.
    now rewrite (printed_text_fixed h1 _ _ (repr_general h1) R1),
                (printed_text_fixed h1 _ _ (repr_general h2) R1).
  - unfold exit_status. now rewrite Hout.
Qed.

Lemma same_input_same_output_witness :
  let h1 := sample_host ["img_to_bytes.py"; "rgb.png"] in
  outcome h1 = outcome other_host /\
  trace h1 = trace other_host /\
  stdout h1 = stdout other_host /\
  exit_status h1 = exit_status other_host.
Proof.
  apply (same_input_same_output
           (sample_host ["img_to_bytes.py"; "rgb.png"]) other_host).
  split.
  - reflexivity.
  - intros p Hp. injection Hp as <-. split; reflexivity.
Defined.

(** * Beyond the contract: what else [main] guarantees *)

(** ** One print per return *)

(** X2: a run that returns has printed exactly one value, a message when
    it returns 1 and the list of floats when it returns 0. *)
Theorem return_prints_exactly_once (h : Host) (code : Z) :
  outcome h = Ok code ->
  exists v,
    printed h = [v] /\
    stdout h = str (repr_general h) v ++ newline /\
    match v with
    | VStr _ => code = 1%Z
    | VFloats _ => code = 0%Z
    end.
Proof.
  intros Hret. pose proof (run_of_main h) as R. rewrite Hret in R.
  unfold stdout, printed.
  inversion R as [ | prog args Hargv Hlen Hc Ht | prog p Hargv Hex Hc Ht | |
                 | prog p im buffer Hargv Hex Hopen Hbuf Hc Ht ]; subst.
  - exists (VStr (usage_message prog)). repeat split.
  - exists (VStr (not_found_message p)). repeat split.
  - exists (VFloats (map widen buffer)). repeat split.
Qed.

Lemma return_prints_exactly_once_witness :
  let h := sample_host ["img_to_bytes.py"; "missing.png"] in
  exists v,
    printed h = [v] /\
    stdout h = str (repr_general h) v ++ newline /\
    match v with
    | VStr _ => 1%Z = 1%Z
    | VFloats _ => 1%Z = 0%Z
    end.
Proof.
  apply (return_prints_exactly_once
           (sample_host ["img_to_bytes.py"; "missing.png"]) 1%Z).
  reflexivity.
Defined.

(** ** The exit status *)

(** X3: status 0 is only ever the status of a dump: when the process ends
    with status 0, [sys.argv] had two elements, the named path existed,
    the file decoded to a buffer, and standard output is the list literal
    of that buffer. *)
Theorem status_zero_only_after_dump (h : Host) :
  exit_status h = 0%Z ->
  exists buffer,
    dumps h buffer /\
    outcome h = Ok 0%Z /\
    stdout h = list_repr byte_text buffer ++ newline.
Proof.
  intros Hzero. pose proof (run_of_main h) as R.
  unfold exit_status in Hzero.
  remember (outcome h) as r. destruct r as [code | e]; [| discriminate Hzero].
  inversion R as [ | | | |
                 | prog p im buffer Hargv Hex Hopen Hbuf Hc Ht ]; subst;
    try discriminate Hzero.
  exists buffer. repeat split.
  - now exists prog, p, im.
  - exact (stdout_dumped h prog p im buffer Hargv Hex Hopen Hbuf).
Qed.

Lemma status_zero_only_after_dump_witness :
  let h := sample_host ["img_to_bytes.py"; "pixel.png"] in
  exists buffer,
    dumps h buffer /\
    outcome h = Ok 0%Z /\
    stdout h = list_repr byte_text buffer ++ newline.
Proof.
  apply (status_zero_only_after_dump
           (sample_host ["img_to_bytes.py"; "pixel.png"])).
  reflexivity.
Defined.

(** ** The dump and the buffer *)

Lemma byte_of_text_byte_text (b : Byte.byte) :
  byte_of_text (byte_text b) = Some b.
Proof. each_byte b. Qed.

Lemma read_elements_texts (buffer : bytes) :
  read_elements (map byte_text buffer) = Some buffer.
Proof.
  induction buffer as [|b buffer IH]; simpl.
  - reflexivity.
  - now rewrite byte_of_text_byte_text, IH.
Qed.

(** A printed list reads back as the buffer it was dumped from. *)
Lemma read_dump_list_repr (buffer : bytes) :
  read_dump (list_repr byte_text buffer) = Some buffer.
Proof.
  unfold read_dump. rewrite elements_of_list_repr. apply read_elements_texts.
Qed.

Lemma stdout_of_dumps (h : Host) (buffer : bytes) :
  dumps h buffer -> stdout h = list_repr byte_text buffer ++ newline.
Proof.
  intros (prog & p & im & Hargv & Hex & Hopen & Hbuf).
  exact (stdout_dumped h prog p im buffer Hargv Hex Hopen Hbuf).
Qed.

(** X4: the text of a dump is decided by the bytes of the buffer and by
    nothing else: two invocations that decode their files print the same
    text exactly when the two buffers are equal, whatever the program
    names, the paths and the dimensions of the images. *)
Theorem dump_decided_by_buffer (h1 h2 : Host) (buffer1 buffer2 : bytes) :
  dumps h1 buffer1 ->
  dumps h2 buffer2 ->
  (stdout h1 = stdout h2 <-> buffer1 = buffer2).
Proof.
  intros Hd1 Hd2.
  rewrite (stdout_of_dumps h1 buffer1 Hd1), (stdout_of_dumps h2 buffer2 Hd2).
  split.
  - intros Heq. apply append_cancel_r in Heq.
    apply (f_equal read_dump) in Heq.
    rewrite !read_dump_list_repr in Heq. now injection Heq.
  - now intros ->.
Qed.

Lemma dump_decided_by_buffer_witness :
  stdout (sample_host ["img_to_bytes.py"; "rgb.png"]) = stdout reshaped_host
  <-> [Byte.x00; Byte.xc8; Byte.xff; Byte.x01; Byte.x0a; Byte.x64]
      = [Byte.x00; Byte.xc8; Byte.xff; Byte.x01; Byte.x0a; Byte.x64].
Proof.
  apply (dump_decided_by_buffer
           (sample_host ["img_to_bytes.py"; "rgb.png"]) reshaped_host).
  - exists "img_to_bytes.py", "rgb.png",
      (mkImage 2 1 3
         (Ok [Byte.x00; Byte.xc8; Byte.xff; Byte.x01; Byte.x0a; Byte.x64])).
    repeat split.
  - exists "dump", "grey.bmp",
      (mkImage 3 2 1
         (Ok [Byte.x00; Byte.xc8; Byte.xff; Byte.x01; Byte.x0a; Byte.x64])).
    repeat split.
Defined.

(** ** The size of the dump *)

Lemma byte_text_length (b : Byte.byte) :
  3 <= String.length (byte_text b) <= 5.
Proof. destruct b; vm_compute; split; repeat constructor. Qed.

Lemma joined_texts_length (b : Byte.byte) (buffer : bytes) :
  5 * List.length buffer + 3
  <= String.length (String.concat ", " (map byte_text (b :: buffer)))
  <= 7 * List.length buffer + 5.
Proof.
  revert b. induction buffer as [|b' buffer IH]; intros b.
  - change (String.concat ", " (map byte_text [b])) with (byte_text b).
    pose proof (byte_text_length b). cbn [List.length]. lia.
  - change (String.concat ", " (map byte_text (b :: b' :: buffer)))
      with (byte_text b ++ ", " ++ String.concat ", " (map byte_text (b' :: buffer))).
    rewrite !length_append.
    pose proof (byte_text_length b). specialize (IH b').
    change (String.length ", ") with 2. cbn [List.length]. lia.
Qed.

(** X5: a dump takes between five and seven characters per byte of the
    buffer: with [n] bytes, standard output holds at least [5 * n + 1] and
    at most [7 * n + 3] characters, the final newline included. *)
Theorem dump_size_is_linear (h : Host) (buffer : bytes) :
  dumps h buffer ->
  5 * List.length buffer + 1
  <= String.length (stdout h)
  <= 7 * List.length buffer + 3.
Proof.
  intros Hd. rewrite (stdout_of_dumps h buffer Hd).
  unfold list_repr. rewrite !length_append.
  change (String.length "[") with 1. change (String.length "]") with 1.
  change (String.length newline) with 1.
  destruct buffer as [|b buffer].
  - cbn. lia.
  - pose proof (joined_texts_length b buffer) as Hlen.
    cbn [List.length]. lia.
Qed.

Lemma dump_size_is_linear_witness :
  5 * 6 + 1
  <= String.length (stdout (sample_host ["img_to_bytes.py"; "rgb.png"]))
  <= 7 * 6 + 3.
Proof.
  apply (dump_size_is_linear
           (sample_host ["img_to_bytes.py"; "rgb.png"])
           [Byte.x00; Byte.xc8; Byte.xff; Byte.x01; Byte.x0a; Byte.x64]).
  exists "img_to_bytes.py", "rgb.png",
    (mkImage 2 1 3
       (Ok [Byte.x00; Byte.xc8; Byte.xff; Byte.x01; Byte.x0a; Byte.x64])).
  repeat split.
Defined.

(** ** The path the script touches *)

(** X6: the file system and the decoder are asked about one path only, the
    second element of [sys.argv], and only when [sys.argv] has exactly two
    elements; the decoder is handed that path after the existence check
    answered [True] for it. *)
Theorem only_named_path_is_touched (h : Host) :
  (forall p found,
     In (ExistsCheck p found) (trace h) ->
     List.length (sys_argv h) = 2 /\
     nth_error (sys_argv h) 1 = Some p /\
     path_exists h p = found) /\
  (forall p,
     In (Decode p) (trace h) ->
     List.length (sys_argv h) = 2 /\
     nth_error (sys_argv h) 1 = Some p /\
     path_exists h p = true).
Proof.
  run_cases h;
    match goal with Hargv : sys_argv h = _ |- _ => rewrite Hargv end.
  all: split; intros; match goal with H : In _ _ |- _ => pick_step H end.
  all: match goal with H : _ = _ :> step |- _ => injection H as ? end;
    subst; repeat split; auto.
Qed.

Lemma only_named_path_is_touched_witness :
  let h := sample_host ["img_to_bytes.py"; "photos"] in
  List.length (sys_argv h) = 2 /\
  nth_error (sys_argv h) 1 = Some "photos" /\
  path_exists h "photos" = true.
Proof.
  pose proof (only_named_path_is_touched
                (sample_host ["img_to_bytes.py"; "photos"]))
    as [_ Hdecode].
  apply Hdecode. simpl. auto.
Defined.

(** ** Telling the runs apart *)

(** X7: the first character of standard output tells the kind of run,
    whatever the program name and the path contain: nothing at all when an
    exception left [main], an opening bracket for a dump, [U] for the
    usage message and [E] for the not-found message. *)
Theorem first_character_tells_the_run (h : Host) :
  match stdout h with
  | EmptyString => exists e, outcome h = Raised e
  | String c _ =>
      (c = "["%char /\ exists buffer, dumps h buffer) \/
      (c = "U"%char /\ List.length (sys_argv h) <> 2 /\ outcome h = Ok 1%Z) \/
      (c = "E"%char /\ outcome h = Ok 1%Z /\
       exists prog p, sys_argv h = [prog; p] /\ path_exists h p = false)
  end.
Proof.
  pose proof (run_of_main h) as R.
  pose proof (run_of_sound h _ _ R) as Hrun.
  destruct R as [Hargv | prog args Hargv Hlen | prog p Hargv Hex
                | prog p e Hargv Hex Hopen | prog p im e Hargv Hex Hopen Hbuf
                | prog p im buffer Hargv Hex Hopen Hbuf].
  - rewrite (stdout_nothing_printed h _ _ Hrun) by reflexivity.
    exists IndexError. reflexivity.
  - rewrite (stdout_message h _ _ (usage_message prog) Hrun) by reflexivity.
    right. left. split; [reflexivity | split; [| reflexivity]].
    rewrite Hargv. simpl. lia.
  - rewrite (stdout_message h _ _ (not_found_message p) Hrun) by reflexivity.
    right. right. split; [reflexivity | split; [reflexivity |]].
    now exists prog, p.
  - rewrite (stdout_nothing_printed h _ _ Hrun) by reflexivity.
    exists e. reflexivity.
  - rewrite (stdout_nothing_printed h _ _ Hrun) by reflexivity.
    exists e. reflexivity.
  - rewrite (stdout_dumped h prog p im buffer Hargv Hex Hopen Hbuf).
    left. split; [reflexivity |]. now exists buffer, prog, p, im.
Qed.
